(** * A shallow embedding of [kmip/pie/factory.py] (PyKMIP)

    [ObjectFactory.convert] maps managed objects between the simplified
    ("Pie", [kmip.pie.objects]) model and the protocol ("core",
    [kmip.core.secrets] / [kmip.core.objects]) model.

    Modelling choices:
    - protocol enumerations are their numeric KMIP values ([N]);
    - byte strings are [list byte];
    - the values the factory only copies around (wrapping-data fields,
      cryptographic parameters) are dynamic Python values [pyval], and the
      Python dicts built by the factory are association lists of them;
    - a raised [TypeError] / [AttributeError] is an [Err] of the result
      type, tagged by which check raised it. *)

From Stdlib Require Import String List ZArith NArith Bool.
From Stdlib Require Import Init.Byte.
Import ListNotations.
Open Scope string_scope.
Set Warnings "-register-all".

(** ** Python values and dicts *)

Definition bytes := list byte.

(** Enumeration classes of [kmip.core.enums] used by the checks. *)
Inductive enum_class : Type :=
| CertificateTypeE
| CryptographicUsageMaskE
| KeyFormatTypeE
| OtherEnumE (name : string).

Inductive pyval : Type :=
| PNone
| PBool (b : bool)
| PInt (z : Z)
| PBytes (b : bytes)
| PStr (s : string)
| PEnum (cls : enum_class) (member : N)
| PList (l : list pyval)
| PDict (d : list (string * pyval)).

Definition dict := list (string * pyval).

(** [d.get(k)]: the first binding of [k], [None] when absent. *)
Fixpoint dict_get (k : string) (d : dict) : pyval :=
  match d with
  | [] => PNone
  | (k', v) :: d' => if String.eqb k k' then v else dict_get k d'
  end.

Definition dict_keys (d : dict) : list string := map fst d.

(** ** Enumeration values (numeric KMIP values of [kmip.core.enums]) *)

Module Enums.
Definition KeyFormatType_RAW : N := 1.
Definition KeyFormatType_OPAQUE : N := 2.
Definition KeyFormatType_PKCS_1 : N := 3.
Definition KeyFormatType_PKCS_8 : N := 4.
Definition CertificateType_X_509 : N := 1.
Definition CertificateType_PGP : N := 2.
Definition ObjectType_CERTIFICATE : N := 1.
Definition CryptographicUsageMask_SIGN : N := 1.
Definition CryptographicUsageMask_VERIFY : N := 2.
Definition CryptographicUsageMask_ENCRYPT : N := 4.
Definition CryptographicAlgorithm_AES : N := 3.
Definition CryptographicAlgorithm_RSA : N := 4.
End Enums.

(** ** Errors and the result type *)

Inductive error : Type :=
| UnsupportedVariant          (* "object type unsupported and cannot be converted" *)
| UnsupportedCertificateType  (* "core certificate type not supported" *)
| FormatMismatch (expected observed : N)
                              (* "core key format type not compatible with Pie SymmetricKey" *)
| ConstructionValidationError (* a constructor rejecting a field value *)
| UnexpectedKeyword (k : string) (* [cls( **d)] with a key [cls] does not take *)
| AttributeError.             (* [.value] read on an absent ([None]) attribute *)

Inductive result (A : Type) : Type :=
| Ok (a : A)
| Err (e : error).
Arguments Ok {A} a.
Arguments Err {A} e.

Definition bind {A B} (r : result A) (f : A -> result B) : result B :=
  match r with
  | Ok a => f a
  | Err e => Err e
  end.

Notation "x <- r ;; f" := (bind r (fun x => f))
  (at level 61, r at next level, right associativity).

(** ** Protocol model: [kmip.core.attributes], [kmip.core.objects],
    [kmip.core.secrets] *)

Module Attributes.
Record CryptographicParameters : Type := {
  block_cipher_mode : pyval;
  padding_method : pyval;
  hashing_algorithm : pyval;
  key_role_type : pyval;
  digital_signature_algorithm : pyval;
  cryptographic_algorithm : pyval;
  random_iv : pyval;
  iv_length : pyval;
  tag_length : pyval;
  fixed_field_length : pyval;
  invocation_field_length : pyval;
  counter_length : pyval;
  initial_counter_value : pyval
}.
End Attributes.

Module Core.
(** [EncryptionKeyInformation] / [MACSignatureKeyInformation]. *)
Record KeyInformation : Type := {
  unique_identifier : pyval;
  cryptographic_parameters : Attributes.CryptographicParameters
}.

Record KeyWrappingData : Type := {
  wrapping_method : pyval;
  encryption_key_information : option KeyInformation;
  mac_signature_key_information : option KeyInformation;
  mac_signature : pyval;
  iv_counter_nonce : pyval;
  encoding_option : pyval
}.

Record KeyValue : Type := { key_material : bytes }.

(** An absent attribute object ([None]) is [None]; a present one is
    [Some] of its [.value]. *)
Record KeyBlock : Type := {
  key_format_type : N;
  key_compression_type : option N;
  key_value : KeyValue;
  cryptographic_algorithm : option N;
  cryptographic_length : option Z;
  key_wrapping_data : option KeyWrappingData
}.

Inductive ManagedObject : Type :=
| SymmetricKey (key_block : KeyBlock)
| PublicKey (key_block : KeyBlock)
| PrivateKey (key_block : KeyBlock)
| Certificate (certificate_type : N) (certificate_value : bytes)
| SecretData (secret_data_type : N) (key_block : KeyBlock)
| OpaqueObject (opaque_data_type : N) (opaque_data_value : bytes)
| SplitKey (split_key_parts key_part_identifier split_key_threshold : Z)
    (split_key_method : N) (prime_field_size : option Z)
    (key_block : KeyBlock).
End Core.

(** ** Simplified model: [kmip.pie.objects] *)

Module Pie.
(** The fields of [Key] (SymmetricKey, PublicKey, PrivateKey). *)
Record key : Type := {
  cryptographic_algorithm : N;
  cryptographic_length : Z;
  value : bytes;
  key_format_type : N;
  key_wrapping_data : option dict
}.

(** [SplitKey] extends [Key] with the sharing parameters. *)
Record split_key : Type := {
  split_key_base : key;
  split_key_parts : Z;
  key_part_identifier : Z;
  split_key_threshold : Z;
  split_key_method : N;
  prime_field_size : option Z
}.

(** [Certificate]: [.value] is [certificate_value] here. *)
Record certificate : Type := {
  certificate_type : N;
  certificate_value : bytes;
  cryptographic_usage_masks : list N;
  names : list string;
  object_type : N
}.

(** [SecretData]: [.data_type], [.value]. *)
Record secret_data : Type := {
  data_type : N;
  secret_value : bytes
}.

(** [OpaqueObject]: [.opaque_type], [.value]. *)
Record opaque_object : Type := {
  opaque_type : N;
  opaque_value : bytes
}.

Inductive ManagedObject : Type :=
| SymmetricKey (k : key)
| PublicKey (k : key)
| PrivateKey (k : key)
| Certificate (c : certificate)
| SecretData (s : secret_data)
| OpaqueObject (o : opaque_object)
| SplitKey (s : split_key).
End Pie.

(** Any Python object handed to [convert]. *)
Inductive Object : Type :=
| Simplified (p : Pie.ManagedObject)
| Protocol (c : Core.ManagedObject)
| Foreign (type_name : string).

(** ** Constructors of the two models that are not part of [factory.py] *)

(** Which class is instantiated: the abstract [pobjects.Certificate] itself,
    or a concrete specialization ([X509Certificate], a test's
    [DummyCertificate]). *)
Inductive certificate_class : Type :=
| AbstractCertificate
| ConcreteCertificate.

Fixpoint usage_masks (l : list pyval) : option (list N) :=
  match l with
  | [] => Some []
  | PEnum CryptographicUsageMaskE m :: l' =>
      match usage_masks l' with
      | Some ms => Some (m :: ms)
      | None => None
      end
  | _ :: _ => None
  end.

(** Modelled from the spec: the construction contract of the simplified
    [Certificate] entity ([kmip/pie/objects.py], not in the sources; spec
    section 4.3). [masks] and [name] are [None] when not provided. The
    abstract class cannot be instantiated; a concrete specialization
    validates [certificate_type] (a [CertificateType] member), [value]
    (bytes), [masks] (a list of [CryptographicUsageMask] members) and [name]
    (a string); [masks] defaults to [[]] and [names] to [["Certificate"]];
    [object_type] is the certificate object-type tag. *)
Definition certificate_init (cls : certificate_class)
    (certificate_type value : pyval) (masks name : option pyval)
    : result Pie.certificate :=
  match cls with
  | AbstractCertificate => Err ConstructionValidationError
  | ConcreteCertificate =>
      match certificate_type, value with
      | PEnum CertificateTypeE ct, PBytes v =>
          ms <- match masks with
                | None => Ok []
                | Some (PList l) =>
                    match usage_masks l with
                    | Some ms => Ok ms
                    | None => Err ConstructionValidationError
                    end
                | Some _ => Err ConstructionValidationError
                end ;;
          n <- match name with
               | None => Ok "Certificate"
               | Some (PStr s) => Ok s
               | Some _ => Err ConstructionValidationError
               end ;;
          Ok {| Pie.certificate_type := ct;
                Pie.certificate_value := v;
                Pie.cryptographic_usage_masks := ms;
                Pie.names := [n];
                Pie.object_type := Enums.ObjectType_CERTIFICATE |}
      | _, _ => Err ConstructionValidationError
      end
  end.

(** [pobjects.X509Certificate(value)]. *)
Definition X509Certificate (value : bytes) : result Pie.certificate :=
  certificate_init ConcreteCertificate
    (PEnum CertificateTypeE Enums.CertificateType_X_509) (PBytes value)
    None None.

Definition cryptographic_parameters_keywords : list string :=
  ["block_cipher_mode"; "padding_method"; "hashing_algorithm";
   "key_role_type"; "digital_signature_algorithm"; "cryptographic_algorithm";
   "random_iv"; "iv_length"; "tag_length"; "fixed_field_length";
   "invocation_field_length"; "counter_length"; "initial_counter_value"].

Definition key_wrapping_data_keywords : list string :=
  ["wrapping_method"; "encryption_key_information";
   "mac_signature_key_information"; "mac_signature"; "iv_counter_nonce";
   "encoding_option"].

(** A call [cls( **d)] raises on a key that is not a parameter of [cls]. *)
Fixpoint check_keywords (params : list string) (d : dict) : result unit :=
  match d with
  | [] => Ok tt
  | (k, _) :: d' =>
      if existsb (String.eqb k) params then check_keywords params d'
      else Err (UnexpectedKeyword k)
  end.

(** Modelled from the spec: [cobjects.CryptographicParameters] built from
    the mapping form of the parameters (not in the sources; spec section 3:
    the thirteen fields, all nullable, carried opaquely). *)
Definition cryptographic_parameters_of (v : pyval)
    : result Attributes.CryptographicParameters :=
  match v with
  | PDict m =>
      _ <- check_keywords cryptographic_parameters_keywords m ;;
      Ok {| Attributes.block_cipher_mode := dict_get "block_cipher_mode" m;
            Attributes.padding_method := dict_get "padding_method" m;
            Attributes.hashing_algorithm := dict_get "hashing_algorithm" m;
            Attributes.key_role_type := dict_get "key_role_type" m;
            Attributes.digital_signature_algorithm :=
              dict_get "digital_signature_algorithm" m;
            Attributes.cryptographic_algorithm :=
              dict_get "cryptographic_algorithm" m;
            Attributes.random_iv := dict_get "random_iv" m;
            Attributes.iv_length := dict_get "iv_length" m;
            Attributes.tag_length := dict_get "tag_length" m;
            Attributes.fixed_field_length := dict_get "fixed_field_length" m;
            Attributes.invocation_field_length :=
              dict_get "invocation_field_length" m;
            Attributes.counter_length := dict_get "counter_length" m;
            Attributes.initial_counter_value :=
              dict_get "initial_counter_value" m |}
  | _ => Err ConstructionValidationError
  end.

(** Modelled from the spec: a key-information block of [cobjects]
    built from its mapping form (not in the sources; spec section 3: an
    absent block is the empty mapping in the simplified representation). *)
Definition key_information_of (v : pyval)
    : result (option Core.KeyInformation) :=
  match v with
  | PNone | PDict [] => Ok None
  | PDict m =>
      _ <- check_keywords ["unique_identifier"; "cryptographic_parameters"] m ;;
      cp <- cryptographic_parameters_of (dict_get "cryptographic_parameters" m) ;;
      Ok (Some {| Core.unique_identifier := dict_get "unique_identifier" m;
                  Core.cryptographic_parameters := cp |})
  | _ => Err ConstructionValidationError
  end.

(** Modelled from the spec: [cobjects.KeyWrappingData( **d)] (not in the
    sources; spec section 3, WrappingData): keyword arguments named after
    the six fields, missing ones [None]. *)
Definition KeyWrappingData_init (d : dict) : result Core.KeyWrappingData :=
  _ <- check_keywords key_wrapping_data_keywords d ;;
  eki <- key_information_of (dict_get "encryption_key_information" d) ;;
  mki <- key_information_of (dict_get "mac_signature_key_information" d) ;;
  Ok {| Core.wrapping_method := dict_get "wrapping_method" d;
        Core.encryption_key_information := eki;
        Core.mac_signature_key_information := mki;
        Core.mac_signature := dict_get "mac_signature" d;
        Core.iv_counter_nonce := dict_get "iv_counter_nonce" d;
        Core.encoding_option := dict_get "encoding_option" d |}.

(** ** [ObjectFactory] *)

(** The three key classes passed as [cls] to [_build_core_key] and
    [_build_pie_key]. *)
Inductive key_class : Type :=
| SymmetricKeyCls
| PublicKeyCls
| PrivateKeyCls.

(** [attr.value] on a protocol attribute object that may be [None]. *)
Definition attr_value {A} (a : option A) : result A :=
  match a with
  | Some x => Ok x
  | None => Err AttributeError
  end.

Section ObjectFactory.

(** Modelled from the spec: the key format type that the simplified
    [SymmetricKey] derives from its algorithm and material
    ([kmip/pie/objects.py], not in the sources; spec section 3). *)
Variable symmetric_key_format : N -> bytes -> N.

(** [pobjects.SymmetricKey(algorithm, length, value, key_wrapping_data=...)]. *)
Definition pie_SymmetricKey (algorithm : N) (length : Z) (value : bytes)
    (key_wrapping_data : option dict) : Pie.key :=
  {| Pie.cryptographic_algorithm := algorithm;
     Pie.cryptographic_length := length;
     Pie.value := value;
     Pie.key_format_type := symmetric_key_format algorithm value;
     Pie.key_wrapping_data := key_wrapping_data |}.

(** [_build_cryptographic_parameters]. *)
Definition build_cryptographic_parameters
    (value : Attributes.CryptographicParameters) : dict :=
  [("block_cipher_mode", Attributes.block_cipher_mode value);
   ("padding_method", Attributes.padding_method value);
   ("hashing_algorithm", Attributes.hashing_algorithm value);
   ("key_role_type", Attributes.key_role_type value);
   ("digital_signature_algorithm", Attributes.digital_signature_algorithm value);
   ("cryptographic_algorithm", Attributes.cryptographic_algorithm value);
   ("random_iv", Attributes.random_iv value);
   ("iv_length", Attributes.iv_length value);
   ("tag_length", Attributes.tag_length value);
   ("fixed_field_length", Attributes.fixed_field_length value);
   ("invocation_field_length", Attributes.invocation_field_length value);
   ("counter_length", Attributes.counter_length value);
   ("initial_counter_value", Attributes.initial_counter_value value)].

(** The [if key_info: {...}] step of [_build_key_wrapping_data]; a protocol
    key-information object is truthy, [None] is not. *)
Definition build_key_information (info : option Core.KeyInformation) : dict :=
  match info with
  | Some i =>
      [("unique_identifier", Core.unique_identifier i);
       ("cryptographic_parameters",
          PDict (build_cryptographic_parameters (Core.cryptographic_parameters i)))]
  | None => []
  end.

(** [_build_key_wrapping_data]. *)
Definition build_key_wrapping_data (value : option Core.KeyWrappingData)
    : option dict :=
  match value with
  | None => None
  | Some v =>
      let encryption_key_information :=
        build_key_information (Core.encryption_key_information v) in
      let mac_signature_key_information :=
        build_key_information (Core.mac_signature_key_information v) in
      Some [("wrapping_method", Core.wrapping_method v);
            ("encryption_key_information", PDict encryption_key_information);
            ("mac_signature_key_information", PDict mac_signature_key_information);
            ("mac_signature", Core.mac_signature v);
            ("iv_counter_nonce", Core.iv_counter_nonce v);
            ("encoding_option", Core.encoding_option v)]
  end.

(** [_build_pie_certificate]. *)
Definition build_pie_certificate (certificate_type : N) (value : bytes)
    : result Pie.ManagedObject :=
  if N.eqb certificate_type Enums.CertificateType_X_509 then
    c <- X509Certificate value ;; Ok (Pie.Certificate c)
  else Err UnsupportedCertificateType.

(** [_build_pie_key]. *)
Definition build_pie_key (key_block : Core.KeyBlock) (cls : key_class)
    : result Pie.ManagedObject :=
  algorithm <- attr_value (Core.cryptographic_algorithm key_block) ;;
  length <- attr_value (Core.cryptographic_length key_block) ;;
  let value := Core.key_material (Core.key_value key_block) in
  let format_type := Core.key_format_type key_block in
  let key_wrapping_data := Core.key_wrapping_data key_block in
  match cls with
  | SymmetricKeyCls =>
      let key := pie_SymmetricKey algorithm length value
                   (build_key_wrapping_data key_wrapping_data) in
      if negb (N.eqb (Pie.key_format_type key) format_type) then
        Err (FormatMismatch (Pie.key_format_type key) format_type)
      else Ok (Pie.SymmetricKey key)
  | PublicKeyCls | PrivateKeyCls =>
      let key := {| Pie.cryptographic_algorithm := algorithm;
                    Pie.cryptographic_length := length;
                    Pie.value := value;
                    Pie.key_format_type := format_type;
                    Pie.key_wrapping_data :=
                      build_key_wrapping_data key_wrapping_data |} in
      Ok (match cls with
          | PublicKeyCls => Pie.PublicKey key
          | _ => Pie.PrivateKey key
          end)
  end.

(** [_build_pie_secret_data]. *)
Definition build_pie_secret_data (secret_data_type : N)
    (key_block : Core.KeyBlock) : result Pie.ManagedObject :=
  let value := Core.key_material (Core.key_value key_block) in
  Ok (Pie.SecretData {| Pie.data_type := secret_data_type;
                        Pie.secret_value := value |}).

(** [_build_pie_opaque_object]. *)
Definition build_pie_opaque_object (opaque_type : N) (value : bytes)
    : result Pie.ManagedObject :=
  Ok (Pie.OpaqueObject {| Pie.opaque_type := opaque_type;
                          Pie.opaque_value := value |}).

(** [_build_pie_split_key]. *)
Definition build_pie_split_key (split_key_parts key_part_identifier
    split_key_threshold : Z) (split_key_method : N)
    (prime_field_size : option Z) (key_block : Core.KeyBlock)
    : result Pie.ManagedObject :=
  algorithm <- attr_value (Core.cryptographic_algorithm key_block) ;;
  length <- attr_value (Core.cryptographic_length key_block) ;;
  Ok (Pie.SplitKey
        {| Pie.split_key_base :=
             {| Pie.cryptographic_algorithm := algorithm;
                Pie.cryptographic_length := length;
                Pie.value := Core.key_material (Core.key_value key_block);
                Pie.key_format_type := Core.key_format_type key_block;
                Pie.key_wrapping_data :=
                  build_key_wrapping_data (Core.key_wrapping_data key_block) |};
           Pie.split_key_parts := split_key_parts;
           Pie.key_part_identifier := key_part_identifier;
           Pie.split_key_threshold := split_key_threshold;
           Pie.split_key_method := split_key_method;
           Pie.prime_field_size := prime_field_size |}).

(** [if key.key_wrapping_data: cobjects.KeyWrappingData( **...)]: a dict is
    truthy exactly when it is not empty. *)
Definition core_key_wrapping_data (key_wrapping_data : option dict)
    : result (option Core.KeyWrappingData) :=
  match key_wrapping_data with
  | Some ((_ :: _) as d) => w <- KeyWrappingData_init d ;; Ok (Some w)
  | _ => Ok None
  end.

(** The key block built by [_build_core_key] and [_build_core_split_key]. *)
Definition core_key_block (key : Pie.key) : result Core.KeyBlock :=
  key_wrapping_data <- core_key_wrapping_data (Pie.key_wrapping_data key) ;;
  Ok {| Core.key_format_type := Pie.key_format_type key;
        Core.key_compression_type := None;
        Core.key_value := {| Core.key_material := Pie.value key |};
        Core.cryptographic_algorithm := Some (Pie.cryptographic_algorithm key);
        Core.cryptographic_length := Some (Pie.cryptographic_length key);
        Core.key_wrapping_data := key_wrapping_data |}.

(** [_build_core_key]. *)
Definition build_core_key (key : Pie.key) (cls : key_class)
    : result Core.ManagedObject :=
  key_block <- core_key_block key ;;
  Ok (match cls with
      | SymmetricKeyCls => Core.SymmetricKey key_block
      | PublicKeyCls => Core.PublicKey key_block
      | PrivateKeyCls => Core.PrivateKey key_block
      end).

(** [_build_core_certificate]. *)
Definition build_core_certificate (cert : Pie.certificate)
    : result Core.ManagedObject :=
  Ok (Core.Certificate (Pie.certificate_type cert) (Pie.certificate_value cert)).

(** [_build_core_secret_data]. *)
Definition build_core_secret_data (secret : Pie.secret_data)
    : result Core.ManagedObject :=
  let key_block :=
    {| Core.key_format_type := Enums.KeyFormatType_OPAQUE;
       Core.key_compression_type := None;
       Core.key_value := {| Core.key_material := Pie.secret_value secret |};
       Core.cryptographic_algorithm := None;
       Core.cryptographic_length := None;
       Core.key_wrapping_data := None |} in
  Ok (Core.SecretData (Pie.data_type secret) key_block).

(** [_build_core_split_key]. *)
Definition build_core_split_key (secret : Pie.split_key)
    : result Core.ManagedObject :=
  key_block <- core_key_block (Pie.split_key_base secret) ;;
  Ok (Core.SplitKey (Pie.split_key_parts secret) (Pie.key_part_identifier secret)
        (Pie.split_key_threshold secret) (Pie.split_key_method secret)
        (Pie.prime_field_size secret) key_block).

(** [_build_core_opaque_object]. *)
Definition build_core_opaque_object (obj : Pie.opaque_object)
    : result Core.ManagedObject :=
  Ok (Core.OpaqueObject (Pie.opaque_type obj) (Pie.opaque_value obj)).

Definition to_protocol (r : result Core.ManagedObject) : result Object :=
  c <- r ;; Ok (Protocol c).

Definition to_simplified (r : result Pie.ManagedObject) : result Object :=
  p <- r ;; Ok (Simplified p).

(** [ObjectFactory.convert]: the fourteen [isinstance] cases. *)
Definition convert (obj : Object) : result Object :=
  match obj with
  | Simplified (Pie.SymmetricKey k) => to_protocol (build_core_key k SymmetricKeyCls)
  | Protocol (Core.SymmetricKey kb) => to_simplified (build_pie_key kb SymmetricKeyCls)
  | Simplified (Pie.PublicKey k) => to_protocol (build_core_key k PublicKeyCls)
  | Protocol (Core.PublicKey kb) => to_simplified (build_pie_key kb PublicKeyCls)
  | Simplified (Pie.PrivateKey k) => to_protocol (build_core_key k PrivateKeyCls)
  | Protocol (Core.PrivateKey kb) => to_simplified (build_pie_key kb PrivateKeyCls)
  | Simplified (Pie.Certificate c) => to_protocol (build_core_certificate c)
  | Protocol (Core.Certificate ct v) => to_simplified (build_pie_certificate ct v)
  | Simplified (Pie.SecretData s) => to_protocol (build_core_secret_data s)
  | Protocol (Core.SecretData t kb) => to_simplified (build_pie_secret_data t kb)
  | Simplified (Pie.OpaqueObject o) => to_protocol (build_core_opaque_object o)
  | Protocol (Core.OpaqueObject t v) => to_simplified (build_pie_opaque_object t v)
  | Simplified (Pie.SplitKey s) => to_protocol (build_core_split_key s)
  | Protocol (Core.SplitKey n i t m p kb) =>
      to_simplified (build_pie_split_key n i t m p kb)
  | Foreign _ => Err UnsupportedVariant
  end.

End ObjectFactory.

(** ** Definitions used by the statements *)

(** [convert(convert(x))]. *)
Definition roundtrip (fmt : N -> bytes -> N) (x : Object) : result Object :=
  y <- convert fmt x ;; convert fmt y.

(** The semantic key fields of spec section 3 held by a key block (the
    compression type is not one of them). *)
Definition key_block_semantic_eq (a b : Core.KeyBlock) : Prop :=
  Core.key_format_type a = Core.key_format_type b /\
  Core.key_value a = Core.key_value b /\
  Core.cryptographic_algorithm a = Core.cryptographic_algorithm b /\
  Core.cryptographic_length a = Core.cryptographic_length b /\
  Core.key_wrapping_data a = Core.key_wrapping_data b.

(** Equality in all semantic fields (spec section 3). Every field of a
    simplified object is semantic; secret data carries only its type and
    material. *)
Definition semantic_eq (x y : Object) : Prop :=
  match x, y with
  | Simplified p, Simplified q => p = q
  | Protocol (Core.SymmetricKey a), Protocol (Core.SymmetricKey b)
  | Protocol (Core.PublicKey a), Protocol (Core.PublicKey b)
  | Protocol (Core.PrivateKey a), Protocol (Core.PrivateKey b) =>
      key_block_semantic_eq a b
  | Protocol (Core.Certificate t v), Protocol (Core.Certificate t' v') =>
      t = t' /\ v = v'
  | Protocol (Core.SecretData t a), Protocol (Core.SecretData t' b) =>
      t = t' /\ Core.key_value a = Core.key_value b
  | Protocol (Core.OpaqueObject t v), Protocol (Core.OpaqueObject t' v') =>
      t = t' /\ v = v'
  | Protocol (Core.SplitKey n i t m p a), Protocol (Core.SplitKey n' i' t' m' p' b) =>
      n = n' /\ i = i' /\ t = t' /\ m = m' /\ p = p' /\ key_block_semantic_eq a b
  | _, _ => False
  end.

(** Simplified wrapping data in the form the converter produces: absent,
    or the six-key mapping built from a protocol wrapping-data object. *)
Definition wrapping_data_well_formed (w : option dict) : Prop :=
  w = None \/ exists c, w = build_key_wrapping_data (Some c).

(** The key attributes of a protocol key block are present. *)
Definition key_attributes_present (kb : Core.KeyBlock) : Prop :=
  exists algorithm length,
    Core.cryptographic_algorithm kb = Some algorithm /\
    Core.cryptographic_length kb = Some length.

(** Well-formed inputs of a supported variant (spec section 3). *)
Definition well_formed (fmt : N -> bytes -> N) (x : Object) : Prop :=
  match x with
  | Simplified (Pie.SymmetricKey k) =>
      Pie.key_format_type k = fmt (Pie.cryptographic_algorithm k) (Pie.value k) /\
      wrapping_data_well_formed (Pie.key_wrapping_data k)
  | Simplified (Pie.PublicKey k) | Simplified (Pie.PrivateKey k) =>
      wrapping_data_well_formed (Pie.key_wrapping_data k)
  | Simplified (Pie.Certificate c) =>
      Pie.certificate_type c = Enums.CertificateType_X_509
  | Simplified (Pie.SecretData _) | Simplified (Pie.OpaqueObject _) => True
  | Simplified (Pie.SplitKey s) =>
      wrapping_data_well_formed (Pie.key_wrapping_data (Pie.split_key_base s))
  | Protocol (Core.SymmetricKey kb) =>
      exists algorithm length,
        Core.cryptographic_algorithm kb = Some algorithm /\
        Core.cryptographic_length kb = Some length /\
        Core.key_format_type kb =
          fmt algorithm (Core.key_material (Core.key_value kb))
  | Protocol (Core.PublicKey kb) | Protocol (Core.PrivateKey kb) =>
      key_attributes_present kb
  | Protocol (Core.Certificate t _) => t = Enums.CertificateType_X_509
  | Protocol (Core.SecretData _ _) | Protocol (Core.OpaqueObject _ _) => True
  | Protocol (Core.SplitKey _ _ _ _ _ kb) => key_attributes_present kb
  | Foreign _ => False
  end.

(** The simplified certificate a protocol X.509 certificate converts to. *)
Definition default_x509 (value : bytes) : Pie.certificate :=
  {| Pie.certificate_type := Enums.CertificateType_X_509;
     Pie.certificate_value := value;
     Pie.cryptographic_usage_masks := [];
     Pie.names := ["Certificate"];
     Pie.object_type := Enums.ObjectType_CERTIFICATE |}.

(** A key with its wrapping data replaced. *)
Definition with_key_wrapping_data (k : Pie.key) (w : option dict) : Pie.key :=
  {| Pie.cryptographic_algorithm := Pie.cryptographic_algorithm k;
     Pie.cryptographic_length := Pie.cryptographic_length k;
     Pie.value := Pie.value k;
     Pie.key_format_type := Pie.key_format_type k;
     Pie.key_wrapping_data := w |}.

Definition split_key_with_base (s : Pie.split_key) (k : Pie.key) : Pie.split_key :=
  {| Pie.split_key_base := k;
     Pie.split_key_parts := Pie.split_key_parts s;
     Pie.key_part_identifier := Pie.key_part_identifier s;
     Pie.split_key_threshold := Pie.split_key_threshold s;
     Pie.split_key_method := Pie.split_key_method s;
     Pie.prime_field_size := Pie.prime_field_size s |}.

(** A derivation of the symmetric key format: every symmetric key is
    [RAW], as for the library's simplified [SymmetricKey]. *)
Definition raw_format (_ : N) (_ : bytes) : N := Enums.KeyFormatType_RAW.

(** Sample values. *)
Definition sample_key_bytes : bytes := [x00; x01; x02; x03].

Definition sample_aes_key : Pie.key :=
  {| Pie.cryptographic_algorithm := Enums.CryptographicAlgorithm_AES;
     Pie.cryptographic_length := 32;
     Pie.value := sample_key_bytes;
     Pie.key_format_type := Enums.KeyFormatType_RAW;
     Pie.key_wrapping_data := None |}.

Definition sample_pkcs8_block : Core.KeyBlock :=
  {| Core.key_format_type := Enums.KeyFormatType_PKCS_8;
     Core.key_compression_type := None;
     Core.key_value := {| Core.key_material := sample_key_bytes |};
     Core.cryptographic_algorithm := Some Enums.CryptographicAlgorithm_AES;
     Core.cryptographic_length := Some 32%Z;
     Core.key_wrapping_data := None |}.

(** [X509Certificate(value, masks=[ENCRYPT, VERIFY], name="Test Certificate")]
    as built by the certificate contract. *)
Definition sample_certificate_init : result Pie.certificate :=
  certificate_init ConcreteCertificate
    (PEnum CertificateTypeE Enums.CertificateType_X_509)
    (PBytes sample_key_bytes)
    (Some (PList [PEnum CryptographicUsageMaskE Enums.CryptographicUsageMask_ENCRYPT;
                  PEnum CryptographicUsageMaskE Enums.CryptographicUsageMask_VERIFY]))
    (Some (PStr "Test Certificate")).

Definition sample_certificate : Pie.certificate :=
  {| Pie.certificate_type := Enums.CertificateType_X_509;
     Pie.certificate_value := sample_key_bytes;
     Pie.cryptographic_usage_masks :=
       [Enums.CryptographicUsageMask_ENCRYPT; Enums.CryptographicUsageMask_VERIFY];
     Pie.names := ["Test Certificate"];
     Pie.object_type := Enums.ObjectType_CERTIFICATE |}.

(** The errors a protocol-to-simplified conversion can report, per
    variant. *)
Definition protocol_errors (c : Core.ManagedObject) (e : error) : Prop :=
  match c with
  | Core.SymmetricKey _ => e = AttributeError \/ exists x y, e = FormatMismatch x y
  | Core.PublicKey _ | Core.PrivateKey _ | Core.SplitKey _ _ _ _ _ _ =>
      e = AttributeError
  | Core.Certificate _ _ => e = UnsupportedCertificateType
  | Core.SecretData _ _ | Core.OpaqueObject _ _ => False
  end.

(** The [Key] part of a simplified key or split key. *)
Definition simplified_key_base (p : Pie.ManagedObject) : option Pie.key :=
  match p with
  | Pie.SymmetricKey k | Pie.PublicKey k | Pie.PrivateKey k => Some k
  | Pie.SplitKey s => Some (Pie.split_key_base s)
  | _ => None
  end.

(** A key block with its compression type dropped. *)
Definition without_compression (kb : Core.KeyBlock) : Core.KeyBlock :=
  {| Core.key_format_type := Core.key_format_type kb;
     Core.key_compression_type := None;
     Core.key_value := Core.key_value kb;
     Core.cryptographic_algorithm := Core.cryptographic_algorithm kb;
     Core.cryptographic_length := Core.cryptographic_length kb;
     Core.key_wrapping_data := Core.key_wrapping_data kb |}.

(** The key block [_build_core_secret_data] builds around some material. *)
Definition opaque_key_block (material : bytes) : Core.KeyBlock :=
  {| Core.key_format_type := Enums.KeyFormatType_OPAQUE;
     Core.key_compression_type := None;
     Core.key_value := {| Core.key_material := material |};
     Core.cryptographic_algorithm := None;
     Core.cryptographic_length := None;
     Core.key_wrapping_data := None |}.

(** Which universe an object belongs to. *)
Definition is_simplified (x : Object) : bool :=
  match x with Simplified _ => true | _ => false end.

Definition is_protocol (x : Object) : bool :=
  match x with Protocol _ => true | _ => false end.

Definition sample_rsa_block : Core.KeyBlock :=
  {| Core.key_format_type := Enums.KeyFormatType_PKCS_1;
     Core.key_compression_type := Some 1%N;
     Core.key_value := {| Core.key_material := sample_key_bytes |};
     Core.cryptographic_algorithm := Some Enums.CryptographicAlgorithm_RSA;
     Core.cryptographic_length := Some 32%Z;
     Core.key_wrapping_data := None |}.

Definition sample_wrapping : Core.KeyWrappingData :=
  {| Core.wrapping_method := PEnum (OtherEnumE "WrappingMethod") 1;
     Core.encryption_key_information :=
       Some {| Core.unique_identifier := PStr "1";
               Core.cryptographic_parameters :=
                 {| Attributes.block_cipher_mode := PEnum (OtherEnumE "BlockCipherMode") 1;
                    Attributes.padding_method := PNone;
                    Attributes.hashing_algorithm := PNone;
                    Attributes.key_role_type := PNone;
                    Attributes.digital_signature_algorithm := PNone;
                    Attributes.cryptographic_algorithm := PNone;
                    Attributes.random_iv := PNone;
                    Attributes.iv_length := PNone;
                    Attributes.tag_length := PNone;
                    Attributes.fixed_field_length := PNone;
                    Attributes.invocation_field_length := PNone;
                    Attributes.counter_length := PNone;
                    Attributes.initial_counter_value := PNone |} |};
     Core.mac_signature_key_information := None;
     Core.mac_signature := PNone;
     Core.iv_counter_nonce := PNone;
     Core.encoding_option := PNone |}.

Example sample_certificate_built : sample_certificate_init = Ok sample_certificate.
Proof. reflexivity. Qed.

Example sample_aes_roundtrip :
  roundtrip raw_format (Simplified (Pie.SymmetricKey sample_aes_key))
  = Ok (Simplified (Pie.SymmetricKey sample_aes_key)).
Proof. reflexivity. Qed.

Example sample_certificate_roundtrip :
  roundtrip raw_format (Simplified (Pie.Certificate sample_certificate))
  = Ok (Simplified (Pie.Certificate (default_x509 sample_key_bytes))).
Proof. reflexivity. Qed.

(** ** Lemmas on the wrapping-data builders *)

Lemma cryptographic_parameters_of_build (cp : Attributes.CryptographicParameters) :
  cryptographic_parameters_of (PDict (build_cryptographic_parameters cp)) = Ok cp.
Proof. destruct cp; reflexivity. Qed.

Lemma key_information_of_build (i : option Core.KeyInformation) :
  key_information_of (PDict (build_key_information i)) = Ok i.
Proof.
  destruct i as [[uid cp]|]; [|reflexivity].
  destruct cp; reflexivity.
Qed.

Lemma KeyWrappingData_init_build (c : Core.KeyWrappingData) (d : dict) :
  build_key_wrapping_data (Some c) = Some d -> KeyWrappingData_init d = Ok c.
Proof.
  intros H. injection H as <-. destruct c as [wm eki mki ms iv eo].
  destruct eki as [[u1 []]|], mki as [[u2 []]|]; reflexivity.
Qed.

(** The protocol wrapping data survives the way back through the
    simplified mapping form. *)
Lemma core_key_wrapping_data_build (w : option Core.KeyWrappingData) :
  core_key_wrapping_data (build_key_wrapping_data w) = Ok w.
Proof.
  destruct w as [c|]; [|reflexivity].
  destruct (build_key_wrapping_data (Some c)) as [d|] eqn:E; [|discriminate].
  pose proof (KeyWrappingData_init_build c d E) as Hi.
  destruct c; simpl in E; injection E as <-. simpl in *. rewrite Hi. reflexivity.
Qed.

Lemma wrapping_data_well_formed_roundtrip (w : option dict) :
  wrapping_data_well_formed w ->
  exists c, core_key_wrapping_data w = Ok c /\ build_key_wrapping_data c = w.
Proof.
  intros [-> | [c ->]].
  - exists None. split; reflexivity.
  - exists (Some c). split; [apply core_key_wrapping_data_build | reflexivity].
Qed.

Lemma key_eta (k : Pie.key) :
  {| Pie.cryptographic_algorithm := Pie.cryptographic_algorithm k;
     Pie.cryptographic_length := Pie.cryptographic_length k;
     Pie.value := Pie.value k;
     Pie.key_format_type := Pie.key_format_type k;
     Pie.key_wrapping_data := Pie.key_wrapping_data k |} = k.
Proof. destruct k; reflexivity. Qed.

Lemma split_key_eta (s : Pie.split_key) :
  split_key_with_base s (Pie.split_key_base s) = s.
Proof. destruct s; reflexivity. Qed.

Ltac unfold_convert :=
  unfold roundtrip, convert, to_protocol, to_simplified, build_core_key,
    build_pie_key, build_core_split_key, build_pie_split_key,
    build_core_certificate, build_pie_certificate, build_core_secret_data,
    build_pie_secret_data, build_core_opaque_object, build_pie_opaque_object,
    core_key_block, pie_SymmetricKey, attr_value; cbn [bind].

Lemma key_block_semantic_eq_of (kb : Core.KeyBlock) (a : N) (l : Z) :
  Core.cryptographic_algorithm kb = Some a ->
  Core.cryptographic_length kb = Some l ->
  key_block_semantic_eq kb
    {| Core.key_format_type := Core.key_format_type kb;
       Core.key_compression_type := None;
       Core.key_value := {| Core.key_material := Core.key_material (Core.key_value kb) |};
       Core.cryptographic_algorithm := Some a;
       Core.cryptographic_length := Some l;
       Core.key_wrapping_data := Core.key_wrapping_data kb |}.
Proof.
  intros Ha Hl. destruct kb as [f c [m] a' l' w]; simpl in *; subst.
  repeat split.
Qed.

(** ** No builder reports [UnsupportedVariant] *)

Create HintDb not_unsupported.

Lemma bind_not_unsupported {A B} (r : result A) (f : A -> result B) :
  r <> Err UnsupportedVariant ->
  (forall a, f a <> Err UnsupportedVariant) ->
  bind r f <> Err UnsupportedVariant.
Proof. destruct r as [a|e]; simpl; [intros _ H; apply H | intros H _ E; apply H; injection E as ->; reflexivity]. Qed.

Lemma ok_not_unsupported {A} (a : A) : Ok a <> Err UnsupportedVariant.
Proof. discriminate. Qed.

Lemma check_keywords_not_unsupported ps d :
  check_keywords ps d <> Err UnsupportedVariant.
Proof.
  induction d as [|[k v] d IH]; simpl; [discriminate|].
  destruct (existsb (String.eqb k) ps); [exact IH | discriminate].
Qed.

Lemma attr_value_not_unsupported {A} (a : option A) :
  attr_value a <> Err UnsupportedVariant.
Proof. destruct a; discriminate. Qed.

#[export] Hint Resolve bind_not_unsupported ok_not_unsupported
  check_keywords_not_unsupported attr_value_not_unsupported : not_unsupported.

Ltac not_unsupported :=
  repeat (intros; cbn beta iota zeta;
          first [ apply bind_not_unsupported
                | match goal with |- context [if ?b then _ else _] => destruct b end ]);
  try discriminate; auto with not_unsupported.

Lemma cryptographic_parameters_of_not_unsupported v :
  cryptographic_parameters_of v <> Err UnsupportedVariant.
Proof. destruct v; simpl; try discriminate; not_unsupported. Qed.
#[export] Hint Resolve cryptographic_parameters_of_not_unsupported : not_unsupported.

Lemma key_information_of_not_unsupported v :
  key_information_of v <> Err UnsupportedVariant.
Proof.
  destruct v as [| | | | | | |[|kv d]]; cbn [key_information_of]; try discriminate;
    not_unsupported.
Qed.
#[export] Hint Resolve key_information_of_not_unsupported : not_unsupported.

Lemma KeyWrappingData_init_not_unsupported d :
  KeyWrappingData_init d <> Err UnsupportedVariant.
Proof. unfold KeyWrappingData_init. not_unsupported. Qed.
#[export] Hint Resolve KeyWrappingData_init_not_unsupported : not_unsupported.

Lemma core_key_wrapping_data_not_unsupported w :
  core_key_wrapping_data w <> Err UnsupportedVariant.
Proof. unfold core_key_wrapping_data. destruct w as [[|kv d]|]; not_unsupported. Qed.
#[export] Hint Resolve core_key_wrapping_data_not_unsupported : not_unsupported.

Lemma core_key_block_not_unsupported k :
  core_key_block k <> Err UnsupportedVariant.
Proof. unfold core_key_block. not_unsupported. Qed.
#[export] Hint Resolve core_key_block_not_unsupported : not_unsupported.

Lemma X509Certificate_not_unsupported v :
  X509Certificate v <> Err UnsupportedVariant.
Proof. discriminate. Qed.
#[export] Hint Resolve X509Certificate_not_unsupported : not_unsupported.

Lemma convert_not_unsupported fmt (x : Object) :
  (exists n, x = Foreign n) \/ convert fmt x <> Err UnsupportedVariant.
Proof.
  destruct x as [p|c|n]; [right|right|left; eauto].
  - destruct p; unfold_convert; not_unsupported.
  - destruct c; unfold_convert; not_unsupported.
    all: match goal with
         | |- context [match ?e with Some _ => _ | None => _ end] => destruct e
         end; discriminate.
Qed.

(** ** Claims *)

(** C1 (as amended): for every well-formed object of a supported variant
    in either universe, [convert(convert(x))] succeeds; it is equal to [x]
    in all semantic fields, except for a simplified X.509 certificate,
    which comes back with its type and value and with the default usage
    masks [[]] and names [["Certificate"]]. Well-formed: protocol keys and
    split keys carry their algorithm and length; a symmetric key's format
    is the derived one; simplified wrapping data is absent or in the
    six-key form the converter builds; certificates are X.509. *)
Theorem convert_roundtrip_semantic (fmt : N -> bytes -> N) (x : Object) :
  well_formed fmt x ->
  exists y, roundtrip fmt x = Ok y /\
    match x with
    | Simplified (Pie.Certificate c) =>
        y = Simplified (Pie.Certificate (default_x509 (Pie.certificate_value c)))
    | _ => semantic_eq x y
    end.
Proof.
  destruct x as [p|c|n]; simpl; intros Hwf.
  - destruct p as [k|k|k|c|s|o|s]; simpl in Hwf.
    + destruct Hwf as [Hf Hw].
      destruct (wrapping_data_well_formed_roundtrip _ Hw) as [w [Hc Hb]].
      unfold_convert. rewrite Hc. cbn [bind]. simpl. rewrite Hf, N.eqb_refl.
      simpl. eexists; split; [reflexivity|]. simpl.
      rewrite Hb, <- Hf. now rewrite key_eta.
    + destruct (wrapping_data_well_formed_roundtrip _ Hwf) as [w [Hc Hb]].
      unfold_convert. rewrite Hc. cbn [bind]. simpl.
      eexists; split; [reflexivity|]. simpl. rewrite Hb. now rewrite key_eta.
    + destruct (wrapping_data_well_formed_roundtrip _ Hwf) as [w [Hc Hb]].
      unfold_convert. rewrite Hc. cbn [bind]. simpl.
      eexists; split; [reflexivity|]. simpl. rewrite Hb. now rewrite key_eta.
    + unfold_convert. rewrite Hwf. simpl.
      eexists; split; reflexivity.
    + unfold_convert. simpl. eexists; split; [reflexivity|]. destruct s; reflexivity.
    + unfold_convert. simpl. eexists; split; [reflexivity|]. destruct o; reflexivity.
    + destruct (wrapping_data_well_formed_roundtrip _ Hwf) as [w [Hc Hb]].
      unfold_convert. rewrite Hc. cbn [bind]. simpl.
      eexists; split; [reflexivity|]. simpl. rewrite Hb, key_eta.
      destruct s; reflexivity.
  - destruct c as [kb|kb|kb|t v|t kb|t v|n i t m pf kb]; simpl in Hwf.
    + destruct Hwf as [a [l [Ha [Hl Hf]]]].
      unfold_convert. rewrite Ha, Hl. cbn [bind]. simpl.
      rewrite <- Hf, N.eqb_refl. simpl.
      rewrite core_key_wrapping_data_build. cbn [bind]. simpl.
      eexists; split; [reflexivity|].
      exact (key_block_semantic_eq_of kb a l Ha Hl).
    + destruct Hwf as [a [l [Ha Hl]]].
      unfold_convert. rewrite Ha, Hl. cbn [bind]. simpl.
      rewrite core_key_wrapping_data_build. cbn [bind]. simpl.
      eexists; split; [reflexivity|]. exact (key_block_semantic_eq_of kb a l Ha Hl).
    + destruct Hwf as [a [l [Ha Hl]]].
      unfold_convert. rewrite Ha, Hl. cbn [bind]. simpl.
      rewrite core_key_wrapping_data_build. cbn [bind]. simpl.
      eexists; split; [reflexivity|]. exact (key_block_semantic_eq_of kb a l Ha Hl).
    + subst t. unfold_convert. simpl. eexists; split; [reflexivity|]. simpl. repeat split.
    + unfold_convert. simpl. eexists; split; [reflexivity|]. simpl.
      split; [reflexivity|]. destruct (Core.key_value kb); reflexivity.
    + unfold_convert. simpl. eexists; split; [reflexivity|]. simpl. repeat split.
    + destruct Hwf as [a [l [Ha Hl]]].
      unfold_convert. rewrite Ha, Hl. cbn [bind]. simpl.
      rewrite core_key_wrapping_data_build. cbn [bind]. simpl.
      eexists; split; [reflexivity|]. simpl.
      do 5 (split; [reflexivity|]). exact (key_block_semantic_eq_of kb a l Ha Hl).
  - contradiction.
Qed.

Lemma convert_roundtrip_semantic_witness :
  well_formed raw_format (Simplified (Pie.Certificate sample_certificate)) /\
  exists y, roundtrip raw_format (Simplified (Pie.Certificate sample_certificate)) = Ok y /\
    y = Simplified (Pie.Certificate (default_x509 sample_key_bytes)).
Proof.
  split; [reflexivity|].
  apply (convert_roundtrip_semantic raw_format
           (Simplified (Pie.Certificate sample_certificate))).
  reflexivity.
Defined.

(** C1 (as stated) fails: the simplified X.509 certificate built with
    usage masks [[ENCRYPT; VERIFY]] and name ["Test Certificate"] is
    well-formed, but its round trip is not equal to it in all semantic
    fields (the masks and names are lost). *)
Lemma convert_roundtrip_certificate_counterexample :
  well_formed raw_format (Simplified (Pie.Certificate sample_certificate)) /\
  ~ (exists y,
       roundtrip raw_format (Simplified (Pie.Certificate sample_certificate)) = Ok y /\
       semantic_eq (Simplified (Pie.Certificate sample_certificate)) y).
Proof.
  split; [reflexivity|].
  intros [y [H E]].
  assert (R : roundtrip raw_format (Simplified (Pie.Certificate sample_certificate))
              = Ok (Simplified (Pie.Certificate (default_x509 sample_key_bytes))))
    by reflexivity.
  rewrite R in H. injection H as <-. simpl in E. discriminate E.
Qed.

(** C2: [convert] routes each of the fourteen variants (seven entities,
    two directions) to the builder of that variant and direction, and it
    fails with [UnsupportedVariant] exactly on the inputs that are none of
    them. *)
Theorem convert_dispatch (fmt : N -> bytes -> N) :
  (forall k, convert fmt (Simplified (Pie.SymmetricKey k))
             = to_protocol (build_core_key k SymmetricKeyCls)) /\
  (forall kb, convert fmt (Protocol (Core.SymmetricKey kb))
              = to_simplified (build_pie_key fmt kb SymmetricKeyCls)) /\
  (forall k, convert fmt (Simplified (Pie.PublicKey k))
             = to_protocol (build_core_key k PublicKeyCls)) /\
  (forall kb, convert fmt (Protocol (Core.PublicKey kb))
              = to_simplified (build_pie_key fmt kb PublicKeyCls)) /\
  (forall k, convert fmt (Simplified (Pie.PrivateKey k))
             = to_protocol (build_core_key k PrivateKeyCls)) /\
  (forall kb, convert fmt (Protocol (Core.PrivateKey kb))
              = to_simplified (build_pie_key fmt kb PrivateKeyCls)) /\
  (forall c, convert fmt (Simplified (Pie.Certificate c))
             = to_protocol (build_core_certificate c)) /\
  (forall t v, convert fmt (Protocol (Core.Certificate t v))
               = to_simplified (build_pie_certificate t v)) /\
  (forall s, convert fmt (Simplified (Pie.SecretData s))
             = to_protocol (build_core_secret_data s)) /\
  (forall t kb, convert fmt (Protocol (Core.SecretData t kb))
                = to_simplified (build_pie_secret_data t kb)) /\
  (forall o, convert fmt (Simplified (Pie.OpaqueObject o))
             = to_protocol (build_core_opaque_object o)) /\
  (forall t v, convert fmt (Protocol (Core.OpaqueObject t v))
               = to_simplified (build_pie_opaque_object t v)) /\
  (forall s, convert fmt (Simplified (Pie.SplitKey s))
             = to_protocol (build_core_split_key s)) /\
  (forall n i t m p kb, convert fmt (Protocol (Core.SplitKey n i t m p kb))
                        = to_simplified (build_pie_split_key n i t m p kb)) /\
  (forall x, convert fmt x = Err UnsupportedVariant <-> exists n, x = Foreign n).
Proof.
  repeat split; try reflexivity.
  - intros H. destruct (convert_not_unsupported fmt x) as [Hx|Hx];
      [exact Hx | contradiction].
  - intros [n ->]. reflexivity.
Qed.

(** C3: converting a protocol SymmetricKey (algorithm and length present,
    so that the simplified key can be reconstructed) whose declared format
    type differs from the format the reconstructed simplified key derives
    fails with [FormatMismatch]; converting a protocol PublicKey or
    PrivateKey never fails with [FormatMismatch], and with algorithm and
    length present it succeeds and keeps the declared format type. *)
Theorem symmetric_key_format_guard (fmt : N -> bytes -> N) :
  (forall kb algorithm length,
     Core.cryptographic_algorithm kb = Some algorithm ->
     Core.cryptographic_length kb = Some length ->
     Core.key_format_type kb <> fmt algorithm (Core.key_material (Core.key_value kb)) ->
     convert fmt (Protocol (Core.SymmetricKey kb)) =
       Err (FormatMismatch (fmt algorithm (Core.key_material (Core.key_value kb)))
                           (Core.key_format_type kb))) /\
  (forall kb expected observed,
     convert fmt (Protocol (Core.PublicKey kb)) <> Err (FormatMismatch expected observed) /\
     convert fmt (Protocol (Core.PrivateKey kb)) <> Err (FormatMismatch expected observed)) /\
  (forall kb algorithm length,
     Core.cryptographic_algorithm kb = Some algorithm ->
     Core.cryptographic_length kb = Some length ->
     exists k k',
       convert fmt (Protocol (Core.PublicKey kb)) = Ok (Simplified (Pie.PublicKey k)) /\
       convert fmt (Protocol (Core.PrivateKey kb)) = Ok (Simplified (Pie.PrivateKey k')) /\
       Pie.key_format_type k = Core.key_format_type kb /\
       Pie.key_format_type k' = Core.key_format_type kb).
Proof.
  split; [|split].
  - intros kb a l Ha Hl Hne. unfold_convert. rewrite Ha, Hl. cbn [bind]. simpl.
    destruct (N.eqb (fmt a (Core.key_material (Core.key_value kb)))
                    (Core.key_format_type kb)) eqn:E.
    + apply N.eqb_eq in E. congruence.
    + reflexivity.
  - intros kb e o. unfold_convert.
    destruct (Core.cryptographic_algorithm kb), (Core.cryptographic_length kb);
      simpl; split; discriminate.
  - intros kb a l Ha Hl. unfold_convert. rewrite Ha, Hl. cbn [bind].
    do 2 eexists. split; [reflexivity|]. split; [reflexivity|]. split; reflexivity.
Qed.

Lemma symmetric_key_format_guard_witness :
  convert raw_format (Protocol (Core.SymmetricKey sample_pkcs8_block)) =
    Err (FormatMismatch Enums.KeyFormatType_RAW Enums.KeyFormatType_PKCS_8) /\
  exists k k',
    convert raw_format (Protocol (Core.PublicKey sample_pkcs8_block))
      = Ok (Simplified (Pie.PublicKey k)) /\
    convert raw_format (Protocol (Core.PrivateKey sample_pkcs8_block))
      = Ok (Simplified (Pie.PrivateKey k')) /\
    Pie.key_format_type k = Enums.KeyFormatType_PKCS_8 /\
    Pie.key_format_type k' = Enums.KeyFormatType_PKCS_8.
Proof.
  destruct (symmetric_key_format_guard raw_format) as [G1 [_ G3]].
  split.
  - apply (G1 sample_pkcs8_block Enums.CryptographicAlgorithm_AES 32%Z);
      [reflexivity | reflexivity | discriminate].
  - apply (G3 sample_pkcs8_block Enums.CryptographicAlgorithm_AES 32%Z);
      reflexivity.
Defined.

(** C4: converting a protocol certificate of type X.509 succeeds with the
    simplified X.509 certificate carrying its value (and the default masks
    and names); any other certificate type fails with
    [UnsupportedCertificateType]. *)
Theorem certificate_type_guard (fmt : N -> bytes -> N) (ct : N) (value : bytes) :
  (ct = Enums.CertificateType_X_509 ->
   convert fmt (Protocol (Core.Certificate ct value))
   = Ok (Simplified (Pie.Certificate (default_x509 value)))) /\
  (ct <> Enums.CertificateType_X_509 ->
   convert fmt (Protocol (Core.Certificate ct value)) = Err UnsupportedCertificateType).
Proof.
  split; intros H; unfold_convert.
  - subst ct. reflexivity.
  - apply N.eqb_neq in H. rewrite H. reflexivity.
Qed.

Lemma certificate_type_guard_witness :
  convert raw_format (Protocol (Core.Certificate Enums.CertificateType_X_509 sample_key_bytes))
    = Ok (Simplified (Pie.Certificate (default_x509 sample_key_bytes))) /\
  convert raw_format (Protocol (Core.Certificate Enums.CertificateType_PGP sample_key_bytes))
    = Err UnsupportedCertificateType.
Proof.
  split.
  - apply (certificate_type_guard raw_format Enums.CertificateType_X_509 sample_key_bytes).
    reflexivity.
  - apply (certificate_type_guard raw_format Enums.CertificateType_PGP sample_key_bytes).
    discriminate.
Defined.

(** C5: [_build_key_wrapping_data] returns [None] on [None]; on a present
    wrapping-data object it returns a mapping with exactly the six keys
    [wrapping_method], [encryption_key_information],
    [mac_signature_key_information], [mac_signature], [iv_counter_nonce],
    [encoding_option], holding the source fields, where each key-information
    entry is the empty mapping when the source block is absent and otherwise
    the mapping of its [unique_identifier] and built
    [cryptographic_parameters]. *)
Theorem build_key_wrapping_data_shape :
  build_key_wrapping_data None = None /\
  forall v : Core.KeyWrappingData,
  exists d,
    build_key_wrapping_data (Some v) = Some d /\
    dict_keys d = ["wrapping_method"; "encryption_key_information";
                   "mac_signature_key_information"; "mac_signature";
                   "iv_counter_nonce"; "encoding_option"] /\
    dict_get "wrapping_method" d = Core.wrapping_method v /\
    dict_get "mac_signature" d = Core.mac_signature v /\
    dict_get "iv_counter_nonce" d = Core.iv_counter_nonce v /\
    dict_get "encoding_option" d = Core.encoding_option v /\
    dict_get "encryption_key_information" d =
      PDict (build_key_information (Core.encryption_key_information v)) /\
    dict_get "mac_signature_key_information" d =
      PDict (build_key_information (Core.mac_signature_key_information v)) /\
    (forall info, build_key_information info =
       match info with
       | None => []
       | Some i =>
           [("unique_identifier", Core.unique_identifier i);
            ("cryptographic_parameters",
               PDict (build_cryptographic_parameters (Core.cryptographic_parameters i)))]
       end).
Proof.
  split; [reflexivity|].
  intros v. eexists. split; [reflexivity|].
  repeat split; intros [i|]; reflexivity.
Qed.

(** C6: [_build_cryptographic_parameters] returns a mapping with exactly
    the thirteen parameter fields, each the source field as it is (a
    [None] stays [None]); nothing is validated or defaulted. *)
Theorem build_cryptographic_parameters_copy (v : Attributes.CryptographicParameters) :
  let d := build_cryptographic_parameters v in
  dict_keys d = ["block_cipher_mode"; "padding_method"; "hashing_algorithm";
                 "key_role_type"; "digital_signature_algorithm";
                 "cryptographic_algorithm"; "random_iv"; "iv_length";
                 "tag_length"; "fixed_field_length"; "invocation_field_length";
                 "counter_length"; "initial_counter_value"] /\
  dict_get "block_cipher_mode" d = Attributes.block_cipher_mode v /\
  dict_get "padding_method" d = Attributes.padding_method v /\
  dict_get "hashing_algorithm" d = Attributes.hashing_algorithm v /\
  dict_get "key_role_type" d = Attributes.key_role_type v /\
  dict_get "digital_signature_algorithm" d = Attributes.digital_signature_algorithm v /\
  dict_get "cryptographic_algorithm" d = Attributes.cryptographic_algorithm v /\
  dict_get "random_iv" d = Attributes.random_iv v /\
  dict_get "iv_length" d = Attributes.iv_length v /\
  dict_get "tag_length" d = Attributes.tag_length v /\
  dict_get "fixed_field_length" d = Attributes.fixed_field_length v /\
  dict_get "invocation_field_length" d = Attributes.invocation_field_length v /\
  dict_get "counter_length" d = Attributes.counter_length v /\
  dict_get "initial_counter_value" d = Attributes.initial_counter_value v.
Proof. intros d. subst d. repeat split. Qed.

(** C7: converting a simplified SecretData gives a protocol secret-data
    object of the same data type whose key block holds the material, has
    format type [OPAQUE], and has no algorithm, length or wrapping data. *)
Theorem secret_data_to_protocol (fmt : N -> bytes -> N) (s : Pie.secret_data) :
  exists kb,
    convert fmt (Simplified (Pie.SecretData s))
      = Ok (Protocol (Core.SecretData (Pie.data_type s) kb)) /\
    Core.key_material (Core.key_value kb) = Pie.secret_value s /\
    Core.key_format_type kb = Enums.KeyFormatType_OPAQUE /\
    Core.cryptographic_algorithm kb = None /\
    Core.cryptographic_length kb = None /\
    Core.key_wrapping_data kb = None.
Proof.
  eexists. split; [reflexivity|]. repeat split.
Qed.

Lemma usage_masks_members (l : list pyval) (ms : list N) :
  usage_masks l = Some ms ->
  Forall (fun x => exists m, x = PEnum CryptographicUsageMaskE m) l.
Proof.
  revert ms. induction l as [|x l IH]; intros ms H; [constructor|].
  destruct x as [| | | | |[] m| |]; simpl in H; try discriminate.
  destruct (usage_masks l) as [ms'|] eqn:E; [|discriminate].
  constructor; [eauto | eapply IH; reflexivity].
Qed.

(** C8 (spec-modelled constructor): constructing a concrete Certificate
    specialization fails with [ConstructionValidationError] when the
    certificate type is not a [CertificateType] member, when the value is
    not bytes, when masks are given and are not a list of
    [CryptographicUsageMask] members, or when a name is given and is not a
    string; with only a valid type and value it stores both, with no usage
    masks and the names [["Certificate"]]. *)
Theorem certificate_init_contract :
  (forall ct v masks name,
     (forall c, ct <> PEnum CertificateTypeE c) ->
     certificate_init ConcreteCertificate ct v masks name = Err ConstructionValidationError) /\
  (forall ct v masks name,
     (forall b, v <> PBytes b) ->
     certificate_init ConcreteCertificate ct v masks name = Err ConstructionValidationError) /\
  (forall ct v m name,
     ~ (exists l, m = PList l /\
          Forall (fun x => exists k, x = PEnum CryptographicUsageMaskE k) l) ->
     certificate_init ConcreteCertificate ct v (Some m) name
       = Err ConstructionValidationError) /\
  (forall ct v masks n,
     (forall s, n <> PStr s) ->
     certificate_init ConcreteCertificate ct v masks (Some n)
       = Err ConstructionValidationError) /\
  (forall c b,
     certificate_init ConcreteCertificate (PEnum CertificateTypeE c) (PBytes b) None None
     = Ok {| Pie.certificate_type := c;
             Pie.certificate_value := b;
             Pie.cryptographic_usage_masks := [];
             Pie.names := ["Certificate"];
             Pie.object_type := Enums.ObjectType_CERTIFICATE |}).
Proof.
  split; [|split; [|split; [|split]]].
  - intros ct v masks name H. unfold certificate_init.
    destruct ct as [| | | | |[] c| |]; try reflexivity. exfalso; exact (H c eq_refl).
  - intros ct v masks name H. unfold certificate_init.
    destruct ct as [| | | | |[] c| |]; try reflexivity.
    destruct v as [| | |b| | | |]; try reflexivity. exfalso; exact (H b eq_refl).
  - intros ct v m name H. unfold certificate_init.
    destruct ct as [| | | | |[] c| |]; try reflexivity.
    destruct v as [| | |b| | | |]; try reflexivity.
    destruct m as [| | | | | | l|]; try reflexivity.
    destruct (usage_masks l) as [ms|] eqn:E; [|reflexivity].
    exfalso. apply H. exists l. split; [reflexivity|]. eapply usage_masks_members; exact E.
  - intros ct v masks n H. unfold certificate_init.
    destruct ct as [| | | | |[] c| |]; try reflexivity.
    destruct v as [| | |b| | | |]; try reflexivity.
    destruct n as [| | | |s| | |]; try (exfalso; exact (H s eq_refl));
      destruct masks as [[| | | | | | lm|]|]; try reflexivity;
      simpl; destruct (usage_masks lm); reflexivity.
  - reflexivity.
Qed.

Lemma certificate_init_contract_witness :
  certificate_init ConcreteCertificate (PStr "invalid") (PBytes sample_key_bytes) None None
    = Err ConstructionValidationError /\
  certificate_init ConcreteCertificate (PEnum CertificateTypeE Enums.CertificateType_X_509)
    (PInt 0) None None = Err ConstructionValidationError /\
  certificate_init ConcreteCertificate (PEnum CertificateTypeE Enums.CertificateType_X_509)
    (PBytes sample_key_bytes) (Some (PStr "invalid")) None = Err ConstructionValidationError /\
  certificate_init ConcreteCertificate (PEnum CertificateTypeE Enums.CertificateType_X_509)
    (PBytes sample_key_bytes) (Some (PList [PStr "invalid"])) None
    = Err ConstructionValidationError /\
  certificate_init ConcreteCertificate (PEnum CertificateTypeE Enums.CertificateType_X_509)
    (PBytes sample_key_bytes) None (Some (PInt 0)) = Err ConstructionValidationError.
Proof.
  destruct certificate_init_contract as [H1 [H2 [H3 [H4 _]]]].
  split; [apply H1; discriminate|].
  split; [apply H2; discriminate|].
  split; [apply H3; intros [l [E _]]; discriminate E|].
  split; [apply H3; intros [l [E F]]; injection E as <-;
          inversion F as [|x l' [k Hk] _]; discriminate Hk|].
  apply H4; discriminate.
Defined.

(** C9 (spec-modelled constructor): instantiating the abstract Certificate
    fails with [ConstructionValidationError] for every argument tuple, even
    one a concrete specialization accepts; every successfully constructed
    concrete specialization has the certificate object type. *)
Theorem certificate_abstract_object_type :
  (forall ct v masks name,
     certificate_init AbstractCertificate ct v masks name = Err ConstructionValidationError) /\
  (forall ct v masks name c,
     certificate_init ConcreteCertificate ct v masks name = Ok c ->
     Pie.object_type c = Enums.ObjectType_CERTIFICATE).
Proof.
  split; [reflexivity|].
  intros ct v masks name c. unfold certificate_init.
  destruct ct as [| | | | |[] t| |]; try discriminate.
  destruct v; try discriminate.
  destruct masks as [[| | | | | | l|]|]; cbn [bind]; try discriminate;
    try (destruct (usage_masks l); cbn [bind]; [|discriminate]);
    destruct name as [[| | | |s| | |]|]; cbn [bind]; try discriminate;
    intros H; injection H as <-; reflexivity.
Qed.

Lemma certificate_abstract_object_type_witness :
  certificate_init AbstractCertificate
    (PEnum CertificateTypeE Enums.CertificateType_X_509) (PBytes sample_key_bytes) None None
    = Err ConstructionValidationError /\
  certificate_init ConcreteCertificate
    (PEnum CertificateTypeE Enums.CertificateType_X_509) (PBytes sample_key_bytes) None None
    = Ok (default_x509 sample_key_bytes) /\
  Pie.object_type (default_x509 sample_key_bytes) = Enums.ObjectType_CERTIFICATE.
Proof.
  destruct certificate_abstract_object_type as [H1 H2].
  split; [apply H1|]. split; [reflexivity|].
  apply (H2 (PEnum CertificateTypeE Enums.CertificateType_X_509) (PBytes sample_key_bytes)
            None None (default_x509 sample_key_bytes)).
  reflexivity.
Defined.

(** C10: a simplified key or split key whose wrapping data is a present but
    empty mapping converts to a protocol key block with no wrapping data,
    exactly as the same key with no wrapping data at all does. *)
Theorem empty_wrapping_data_not_preserved (fmt : N -> bytes -> N) (k : Pie.key)
    (s : Pie.split_key) :
  (exists kb, core_key_block (with_key_wrapping_data k (Some [])) = Ok kb /\
              Core.key_wrapping_data kb = None) /\
  core_key_block (with_key_wrapping_data k (Some []))
    = core_key_block (with_key_wrapping_data k None) /\
  convert fmt (Simplified (Pie.SymmetricKey (with_key_wrapping_data k (Some []))))
    = convert fmt (Simplified (Pie.SymmetricKey (with_key_wrapping_data k None))) /\
  convert fmt (Simplified (Pie.PublicKey (with_key_wrapping_data k (Some []))))
    = convert fmt (Simplified (Pie.PublicKey (with_key_wrapping_data k None))) /\
  convert fmt (Simplified (Pie.PrivateKey (with_key_wrapping_data k (Some []))))
    = convert fmt (Simplified (Pie.PrivateKey (with_key_wrapping_data k None))) /\
  convert fmt (Simplified (Pie.SplitKey
      (split_key_with_base s (with_key_wrapping_data k (Some [])))))
    = convert fmt (Simplified (Pie.SplitKey
      (split_key_with_base s (with_key_wrapping_data k None)))).
Proof.
  split; [eexists; split; reflexivity|].
  repeat split.
Qed.

(** ** Further properties of the factory *)

Ltac destruct_matches :=
  repeat match goal with
         | |- context [match ?x with _ => _ end] => destruct x
         end.

(** A protocol-to-simplified conversion fails only as follows: a symmetric
    key with [AttributeError] or [FormatMismatch]; a public, private or
    split key with [AttributeError]; a certificate with
    [UnsupportedCertificateType]; secret data and opaque objects never. *)
Theorem convert_protocol_errors (fmt : N -> bytes -> N) (c : Core.ManagedObject)
    (e : error) :
  convert fmt (Protocol c) = Err e -> protocol_errors c e.
Proof.
  destruct c; unfold_convert; intros H;
    repeat (cbn [bind] in H;
            match type of H with context [match ?x with _ => _ end] => destruct x end);
    cbn [bind] in H; try discriminate; injection H as <-; simpl; eauto.
Qed.

Lemma convert_protocol_errors_witness :
  convert raw_format (Protocol (Core.SymmetricKey sample_pkcs8_block))
    = Err (FormatMismatch Enums.KeyFormatType_RAW Enums.KeyFormatType_PKCS_8) /\
  protocol_errors (Core.SymmetricKey sample_pkcs8_block)
    (FormatMismatch Enums.KeyFormatType_RAW Enums.KeyFormatType_PKCS_8).
Proof.
  split; [reflexivity|].
  apply (convert_protocol_errors raw_format). reflexivity.
Defined.

(** A protocol public, private or split key converts with [AttributeError]
    exactly when its key block has no algorithm or no length. *)
Theorem convert_protocol_key_attribute_error (fmt : N -> bytes -> N)
    (kb : Core.KeyBlock) :
  let missing := Core.cryptographic_algorithm kb = None \/
                 Core.cryptographic_length kb = None in
  (convert fmt (Protocol (Core.PublicKey kb)) = Err AttributeError <-> missing) /\
  (convert fmt (Protocol (Core.PrivateKey kb)) = Err AttributeError <-> missing) /\
  (forall n i t m p,
     convert fmt (Protocol (Core.SplitKey n i t m p kb)) = Err AttributeError
     <-> missing).
Proof.
  intros missing. subst missing. unfold_convert.
  destruct (Core.cryptographic_algorithm kb), (Core.cryptographic_length kb); cbn [bind];
    repeat split; intros; try discriminate; try tauto;
    match goal with H : _ \/ _ |- _ => destruct H; discriminate end.
Qed.

(** Converting a protocol SymmetricKey succeeds exactly when its key block
    has an algorithm and a length and its format type is the one the
    simplified key derives from that algorithm and the material. *)
Theorem convert_protocol_symmetric_key_succeeds (fmt : N -> bytes -> N)
    (kb : Core.KeyBlock) :
  (exists p, convert fmt (Protocol (Core.SymmetricKey kb)) = Ok p) <->
  (exists algorithm length,
     Core.cryptographic_algorithm kb = Some algorithm /\
     Core.cryptographic_length kb = Some length /\
     Core.key_format_type kb = fmt algorithm (Core.key_material (Core.key_value kb))).
Proof.
  unfold_convert.
  destruct (Core.cryptographic_algorithm kb) as [a|], (Core.cryptographic_length kb) as [l|];
    cbn [bind]; split; intros H;
    try (destruct H as [? H]; discriminate);
    try (destruct H as (? & ? & H1 & H2 & _); discriminate);
    cbn [Pie.key_format_type] in *.
  - destruct (N.eqb (fmt a (Core.key_material (Core.key_value kb))) (Core.key_format_type kb))
      eqn:E; simpl in H; destruct H as [p Hp]; [|discriminate].
    apply N.eqb_eq in E. exists a, l. auto.
  - destruct H as (a' & l' & Ha & Hl & Hf). injection Ha as <-. injection Hl as <-.
    rewrite <- Hf, N.eqb_refl. simpl. eexists; reflexivity.
Qed.

(** A simplified-to-protocol conversion fails only for a key or split key
    whose wrapping data is a non-empty mapping that the protocol
    [KeyWrappingData] rejects, with that error; certificates, secret data
    and opaque objects always convert. *)
Theorem convert_simplified_errors (fmt : N -> bytes -> N) (p : Pie.ManagedObject)
    (e : error) :
  convert fmt (Simplified p) = Err e ->
  exists k d, simplified_key_base p = Some k /\
              Pie.key_wrapping_data k = Some d /\ d <> [] /\
              KeyWrappingData_init d = Err e.
Proof.
  destruct p; unfold_convert; unfold core_key_wrapping_data; intros H;
    try discriminate;
    match type of H with
    | context [Pie.key_wrapping_data ?k] =>
        destruct (Pie.key_wrapping_data k) as [[|kv d]|] eqn:Ew; cbn [bind] in H;
          try discriminate;
          destruct (KeyWrappingData_init (kv :: d)) eqn:Ei; cbn [bind] in H;
          try discriminate; injection H as <-;
          exists k, (kv :: d); simpl; repeat split; auto; discriminate
    end.
Qed.

Lemma convert_simplified_errors_witness :
  convert raw_format (Simplified (Pie.SymmetricKey
      (with_key_wrapping_data sample_aes_key (Some [("bogus", PNone)]))))
    = Err (UnexpectedKeyword "bogus") /\
  exists k d,
    simplified_key_base (Pie.SymmetricKey
      (with_key_wrapping_data sample_aes_key (Some [("bogus", PNone)]))) = Some k /\
    Pie.key_wrapping_data k = Some d /\ d <> [] /\
    KeyWrappingData_init d = Err (UnexpectedKeyword "bogus").
Proof.
  split; [reflexivity|].
  apply (convert_simplified_errors raw_format). reflexivity.
Defined.

(** A protocol SecretData converted to the simplified model and back keeps
    its data type and material, but its key block becomes the fixed opaque
    block: format [OPAQUE], no compression, algorithm, length or wrapping
    data, whatever the original block held. *)
Theorem protocol_secret_data_roundtrip (fmt : N -> bytes -> N) (t : N)
    (kb : Core.KeyBlock) :
  roundtrip fmt (Protocol (Core.SecretData t kb))
  = Ok (Protocol (Core.SecretData t
                    (opaque_key_block (Core.key_material (Core.key_value kb))))).
Proof. reflexivity. Qed.

(** A protocol public, private or split key (with algorithm and length),
    or a symmetric key whose format is the derived one, converted to the
    simplified model and back is unchanged except that its key compression
    type becomes [None]; the split-key sharing parameters come back as they
    were, whatever their values. *)
Theorem protocol_key_roundtrip_drops_compression (fmt : N -> bytes -> N)
    (kb : Core.KeyBlock) (algorithm : N) (length : Z) :
  Core.cryptographic_algorithm kb = Some algorithm ->
  Core.cryptographic_length kb = Some length ->
  roundtrip fmt (Protocol (Core.PublicKey kb))
    = Ok (Protocol (Core.PublicKey (without_compression kb))) /\
  roundtrip fmt (Protocol (Core.PrivateKey kb))
    = Ok (Protocol (Core.PrivateKey (without_compression kb))) /\
  (Core.key_format_type kb = fmt algorithm (Core.key_material (Core.key_value kb)) ->
   roundtrip fmt (Protocol (Core.SymmetricKey kb))
     = Ok (Protocol (Core.SymmetricKey (without_compression kb)))) /\
  (forall n i t m p,
     roundtrip fmt (Protocol (Core.SplitKey n i t m p kb))
     = Ok (Protocol (Core.SplitKey n i t m p (without_compression kb)))).
Proof.
  intros Ha Hl.
  destruct kb as [f c [mat] a l w]; simpl in Ha, Hl |- *; subst a l.
  split; [|split; [|split]]; [| |intros Hf|intros n i t m p];
    unfold_convert; cbn [bind]; simpl in *;
    try (rewrite <- Hf, N.eqb_refl; simpl);
    rewrite core_key_wrapping_data_build; cbn [bind]; simpl;
    try rewrite <- Hf; reflexivity.
Qed.

Lemma protocol_key_roundtrip_drops_compression_witness :
  roundtrip raw_format (Protocol (Core.PublicKey sample_rsa_block))
    = Ok (Protocol (Core.PublicKey (without_compression sample_rsa_block))) /\
  Core.key_compression_type sample_rsa_block = Some 1%N.
Proof.
  split; [|reflexivity].
  apply (protocol_key_roundtrip_drops_compression raw_format sample_rsa_block
           Enums.CryptographicAlgorithm_RSA 32%Z); reflexivity.
Defined.

(** [convert] always answers in the opposite universe: a successful
    conversion of a simplified object is a protocol object and vice versa. *)
Theorem convert_switches_universe (fmt : N -> bytes -> N) (x y : Object) :
  convert fmt x = Ok y ->
  is_protocol y = is_simplified x /\ is_simplified y = is_protocol x.
Proof.
  assert (P : forall r y, to_protocol r = Ok y -> exists c, y = Protocol c).
  { intros [c|e] y' H; simpl in H; [injection H as <-; eauto | discriminate]. }
  assert (S : forall r y, to_simplified r = Ok y -> exists p, y = Simplified p).
  { intros [p|e] y' H; simpl in H; [injection H as <-; eauto | discriminate]. }
  destruct x as [p|c|n]; [destruct p|destruct c|]; unfold convert; intros H;
    try discriminate;
    first [ destruct (P _ _ H) as [c' ->] | destruct (S _ _ H) as [p' ->] ];
    split; reflexivity.
Qed.

Lemma convert_switches_universe_witness :
  convert raw_format (Simplified (Pie.SymmetricKey sample_aes_key))
    = Ok (Protocol (Core.SymmetricKey
            {| Core.key_format_type := Enums.KeyFormatType_RAW;
               Core.key_compression_type := None;
               Core.key_value := {| Core.key_material := sample_key_bytes |};
               Core.cryptographic_algorithm := Some Enums.CryptographicAlgorithm_AES;
               Core.cryptographic_length := Some 32%Z;
               Core.key_wrapping_data := None |})) /\
  is_protocol (Protocol (Core.SymmetricKey
            {| Core.key_format_type := Enums.KeyFormatType_RAW;
               Core.key_compression_type := None;
               Core.key_value := {| Core.key_material := sample_key_bytes |};
               Core.cryptographic_algorithm := Some Enums.CryptographicAlgorithm_AES;
               Core.cryptographic_length := Some 32%Z;
               Core.key_wrapping_data := None |}))
    = is_simplified (Simplified (Pie.SymmetricKey sample_aes_key)).
Proof.
  split; [reflexivity|].
  apply (convert_switches_universe raw_format). reflexivity.
Defined.

Lemma build_cryptographic_parameters_inj (a b : Attributes.CryptographicParameters) :
  build_cryptographic_parameters a = build_cryptographic_parameters b -> a = b.
Proof. destruct a, b; simpl; intros H; injection H; intros; subst; reflexivity. Qed.

Lemma build_key_information_inj (i j : option Core.KeyInformation) :
  build_key_information i = build_key_information j -> i = j.
Proof.
  destruct i as [[u []]|], j as [[u' []]|]; simpl; intros H; try discriminate; [|reflexivity].
  injection H; intros; subst; reflexivity.
Qed.

(** [_build_key_wrapping_data] loses nothing: distinct protocol wrapping
    data (absent included) give distinct results. *)
Theorem build_key_wrapping_data_injective (w1 w2 : option Core.KeyWrappingData) :
  build_key_wrapping_data w1 = build_key_wrapping_data w2 -> w1 = w2.
Proof.
  destruct w1 as [[wm eki mki ms iv eo]|], w2 as [[wm' eki' mki' ms' iv' eo']|];
    cbn [build_key_wrapping_data Core.wrapping_method Core.encryption_key_information
         Core.mac_signature_key_information Core.mac_signature Core.iv_counter_nonce
         Core.encoding_option];
    intros H; try discriminate; [|reflexivity].
  injection H as Hwm Heki Hmki Hms Hiv Heo.
  apply build_key_information_inj in Heki, Hmki. subst. reflexivity.
Qed.

Lemma build_key_wrapping_data_injective_witness :
  build_key_wrapping_data (Some sample_wrapping) = build_key_wrapping_data (Some sample_wrapping) /\
  Some sample_wrapping = Some sample_wrapping.
Proof.
  split; [reflexivity|].
  apply build_key_wrapping_data_injective. reflexivity.
Defined.

(** A simplified certificate of a type other than X.509 converts to a
    protocol certificate of that type and value, but converting the result
    back fails with [UnsupportedCertificateType]. *)
Theorem simplified_non_x509_certificate (fmt : N -> bytes -> N) (c : Pie.certificate) :
  Pie.certificate_type c <> Enums.CertificateType_X_509 ->
  convert fmt (Simplified (Pie.Certificate c))
    = Ok (Protocol (Core.Certificate (Pie.certificate_type c) (Pie.certificate_value c))) /\
  roundtrip fmt (Simplified (Pie.Certificate c)) = Err UnsupportedCertificateType.
Proof.
  intros H. split; [reflexivity|].
  unfold_convert. apply N.eqb_neq in H. rewrite H. reflexivity.
Qed.

Lemma simplified_non_x509_certificate_witness :
  let pgp := {| Pie.certificate_type := Enums.CertificateType_PGP;
                Pie.certificate_value := sample_key_bytes;
                Pie.cryptographic_usage_masks := [];
                Pie.names := ["Certificate"];
                Pie.object_type := Enums.ObjectType_CERTIFICATE |} in
  convert raw_format (Simplified (Pie.Certificate pgp))
    = Ok (Protocol (Core.Certificate Enums.CertificateType_PGP sample_key_bytes)) /\
  roundtrip raw_format (Simplified (Pie.Certificate pgp)) = Err UnsupportedCertificateType.
Proof.
  intros pgp. apply (simplified_non_x509_certificate raw_format pgp). discriminate.
Defined.
